(** * Two command-line calculators

    A shallow embedding of [test_repo/calculator/calculator.py] and
    [test_folder/calculator/calculator.py].  Python's [float] is IEEE-754
    binary64; it is modelled by Rocq's primitive [float], whose operations are
    specified (module [FloatAxioms]) by the executable reference
    implementation [SpecFloat].  A Python call either returns a value or
    raises; printing is modelled by passing the two output streams along. *)

From Stdlib Require Import ZArith Lia Bool List String Ascii.
From Stdlib Require Import DecimalString.
From Stdlib Require DecimalZ.
From Stdlib Require Import Floats.
Import ListNotations.

Open Scope string_scope.
Open Scope Z_scope.

(** ** The part of the Python runtime the two programs use *)

Module Py.

(** The exceptions that appear in the model.  [SystemExit] is what
    [argparse] raises on a usage error (code 2). *)
Inductive Exception : Type :=
| ZeroDivisionError
| OverflowError
| ValueError
| UnboundLocalError
| SystemExit (code : Z).

(** A call returns a value or raises. *)
Inductive Outcome (A : Type) : Type :=
| Returned (v : A)
| Raised (e : Exception).
Arguments Returned {A} v.
Arguments Raised {A} e.

Definition bind {A B} (o : Outcome A) (k : A -> Outcome B) : Outcome B :=
  match o with
  | Returned v => k v
  | Raised e => Raised e
  end.

(** [b == 0] and [b == 0.0] on a float [b]: IEEE equality, true exactly on
    the two zeros. *)
Definition eq_zero (b : float) : bool := (b =? 0)%float.

(** [x == y] on floats. *)
Definition float_eq (x y : float) : bool := (x =? y)%float.

(** [a + b], [a - b], [a * b] on floats never raise. *)
Definition float_add (a b : float) : float := (a + b)%float.
Definition float_sub (a b : float) : float := (a - b)%float.
Definition float_mul (a b : float) : float := (a * b)%float.

(** [a / b] on floats: CPython's [float_div] raises [ZeroDivisionError]
    when [b == 0.0] and divides otherwise. *)
Definition float_truediv (a b : float) : Outcome float :=
  if eq_zero b then Raised ZeroDivisionError else Returned (a / b)%float.

(** [x.is_integer()]: false on infinities and NaN, otherwise
    [floor(x) == x]. *)
Definition is_integer (x : float) : bool :=
  match Prim2SF x with
  | S754_zero _ => true
  | S754_finite _ m e =>
      if 0 <=? e then true else (Z.pos m mod 2 ^ (- e) =? 0)
  | S754_infinity _ | S754_nan => false
  end.

(** [int(x)]: truncation toward zero; raises on infinities and NaN. *)
Definition int_of_float (x : float) : Outcome Z :=
  match Prim2SF x with
  | S754_zero _ => Returned 0
  | S754_finite s m e =>
      let q := if 0 <=? e then Z.pos m * 2 ^ e else Z.pos m / 2 ^ (- e) in
      Returned (if s then - q else q)
  | S754_infinity _ => Raised OverflowError
  | S754_nan => Raised ValueError
  end.

(** [str(n)] for an [int]: the decimal numeral. *)
Definition str_of_int (n : Z) : string :=
  NilEmpty.string_of_int (Z.to_int n).

(** *** [repr] of a float

    CPython prints the shortest decimal numeral that reads back as the same
    double (the one nearest to it when several have that length), in
    positional notation when the decimal point falls within
    [-4 < decpt <= 16] and in exponent notation otherwise. *)

Fixpoint zeros (n : nat) : string :=
  match n with
  | O => ""
  | S n' => String "0"%char (zeros n')
  end.

Fixpoint take (n : nat) (s : string) : string :=
  match n, s with
  | S n', String c s' => String c (take n' s')
  | _, _ => ""
  end.

Fixpoint drop (n : nat) (s : string) : string :=
  match n, s with
  | S n', String _ s' => drop n' s'
  | _, _ => s
  end.

(** The digits [d] and the decimal exponent [k] of the shortest numeral
    [d * 10^k] that rounds to [m * 2^e]; [k] is tried from [k0] downwards. *)
Fixpoint shortest (fuel : nat) (m : positive) (e : Z) (k : Z) : Z * Z :=
  match fuel with
  | O => (Z.pos m, e)
  | S fuel' =>
      (* everything in units of 2^(e-2) / 10^k, scaled to integers *)
      let E := e - 2 in
      let up := 2 ^ Z.max E 0 * 10 ^ Z.max (- k) 0 in
      let grid := 2 ^ Z.max (- E) 0 * 10 ^ Z.max k 0 in
      (* the gap below a power of two is half the gap above it *)
      let below :=
        if andb (Pos.eqb m 4503599627370496) (-1074 <? e) then 1 else 2 in
      let x := 4 * Z.pos m * up in
      let lo := (4 * Z.pos m - below) * up in
      let hi := (4 * Z.pos m + 2) * up in
      let inside v :=
        if Z.even (Z.pos m) then andb (lo <=? v) (v <=? hi)
        else andb (lo <? v) (v <? hi) in
      let d1 := x / grid in
      let d2 := if x mod grid =? 0 then d1 else d1 + 1 in
      let ok1 := andb (0 <? d1) (inside (d1 * grid)) in
      let ok2 := inside (d2 * grid) in
      let nearer1 :=
        let r := 2 * (x mod grid) in
        orb (r <? grid) (andb (r =? grid) (Z.even d1)) in
      if andb ok1 ok2 then (if nearer1 then d1 else d2, k)
      else if ok1 then (d1, k)
      else if ok2 then (d2, k)
      else shortest fuel' m e (k - 1)
  end.

Definition exponent_suffix (x : Z) : string :=
  let digits := str_of_int (Z.abs x) in
  let padded := if Z.abs x <? 10 then "0" ++ digits else digits in
  (if x <? 0 then "e-" else "e+") ++ padded.

Definition format_digits (digits : string) (decpt : Z) : string :=
  let n := Z.of_nat (String.length digits) in
  if orb (decpt <=? -4) (16 <? decpt) then
    let frac := drop 1 digits in
    take 1 digits ++ (if String.eqb frac "" then "" else "." ++ frac)
      ++ exponent_suffix (decpt - 1)
  else if decpt <=? 0 then
    "0." ++ zeros (Z.to_nat (- decpt)) ++ digits
  else if n <=? decpt then
    digits ++ zeros (Z.to_nat (decpt - n)) ++ ".0"
  else
    take (Z.to_nat decpt) digits ++ "." ++ drop (Z.to_nat decpt) digits.

Definition float_repr (x : float) : string :=
  match Prim2SF x with
  | S754_nan => "nan"
  | S754_infinity s => if s then "-inf" else "inf"
  | S754_zero s => if s then "-0.0" else "0.0"
  | S754_finite s m e =>
      let k0 := (Z.pos (digits2_pos m) + e) * 30103 / 100000 + 2 in
      let '(d, k) := shortest 400 m e k0 in
      let digits := str_of_int d in
      (if s then "-" else "")
        ++ format_digits digits (Z.of_nat (String.length digits) + k)
  end.

(** *** Output streams

    The lines the programs' own [print] calls write: [print(s)] appends the
    line [s] to standard output, [print(s, file=sys.stderr)] to standard
    error.  What [argparse] writes itself when it ends the process (its help
    text, its usage and error lines) is not recorded. *)
Record World : Type := { stdout : list string; stderr : list string }.

Definition print (s : string) (w : World) : World :=
  {| stdout := (stdout w ++ [s])%list; stderr := stderr w |}.

Definition print_stderr (s : string) (w : World) : World :=
  {| stdout := stdout w; stderr := (stderr w ++ [s])%list |}.

Definition empty : World := {| stdout := []; stderr := [] |}.

(** The exit status of a process whose entry point ended with [o]:
    [raise SystemExit(n)] exits with [n]; any other uncaught exception
    exits with 1. *)
Definition exit_status (o : Outcome Z) : Z :=
  match o with
  | Returned n => n
  | Raised (SystemExit n) => n
  | Raised _ => 1
  end.

(** *** Calls that may print

    A call runs in the streams it finds and leaves its outcome and the
    streams as it has left them. *)
Definition IO (A : Type) : Type := World -> Outcome A * World.

Definition ret {A} (v : A) : IO A := fun w => (Returned v, w).

Definition raise {A} (e : Exception) : IO A := fun w => (Raised e, w).

(** A call of the runtime that touches no stream. *)
Definition lift {A} (o : Outcome A) : IO A := fun w => (o, w).

(** One statement after the other: an exception ends the sequence. *)
Definition and_then {A B} (m : IO A) (k : A -> IO B) : IO B :=
  fun w =>
    match m w with
    | (Returned v, w') => k v w'
    | (Raised e, w') => (Raised e, w')
    end.

Definition print_io (s : string) : IO unit :=
  fun w => (Returned tt, print s w).

Definition print_stderr_io (s : string) : IO unit :=
  fun w => (Returned tt, print_stderr s w).

(** *** The help option of [argparse]

    A parser built with the default [add_help] takes [-h] (also repeated, as
    in [-hh]) and [--help] with its abbreviations for the help option: it
    then ends the process with status 0. *)
Fixpoint all_h (s : string) : bool :=
  match s with
  | EmptyString => true
  | String c s' => andb (Ascii.eqb c "h") (all_h s')
  end.

Definition help_flag (name : string) : bool :=
  match name with
  | String "-" (String "h" rest) => all_h rest
  | _ => existsb (String.eqb name) ["--help"; "--hel"; "--he"; "--h"]
  end.

End Py.

(** The operation of a request, as the specification names it. *)
Inductive Operation : Type := Add | Subtract | Multiply | Divide.

(** What a process run leaves behind. *)
Record Process : Type :=
  { out : list string; err : list string; exit_code : Z }.

(** ** [test_repo/calculator/calculator.py] *)

Module TestRepo.
Import Py.

(** The functions of Python's [operator] module, on two floats. *)
Definition operator_add (a b : float) : Outcome float :=
  Returned (float_add a b).
Definition operator_sub (a b : float) : Outcome float :=
  Returned (float_sub a b).
Definition operator_mul (a b : float) : Outcome float :=
  Returned (float_mul a b).
Definition operator_truediv (a b : float) : Outcome float :=
  float_truediv a b.

(** The table [ops] of [make_parser]: sub-command, function, help text. *)
Definition ops : list (string * (float -> float -> Outcome float) * string) :=
  [ ("add", operator_add, "Add two numbers (a + b)");
    ("sub", operator_sub, "Subtract b from a (a - b)");
    ("mul", operator_mul, "Multiply two numbers (a * b)");
    ("div", operator_truediv, "Divide a by b (a / b)") ].

Record Namespace : Type :=
  { operation : string;
    func : float -> float -> Outcome float;
    a : float;
    b : float }.

(** [make_parser] registers one sub-parser per row of [ops], each with
    [set_defaults(func=func)]; [parse_args] selects the row of the given
    sub-command.  On the help option it ends the process with status 0, on
    any other word with status 2.  The operands arrive already converted by
    [type=float]. *)
Fixpoint subparser (name : string)
    (table : list (string * (float -> float -> Outcome float) * string))
    : option (float -> float -> Outcome float) :=
  match table with
  | [] => None
  | (n, f, _) :: rest => if String.eqb name n then Some f else subparser name rest
  end.

Definition parse_args (argv : string * float * float) : Outcome Namespace :=
  let '(name, x, y) := argv in
  if help_flag name then Raised (SystemExit 0)
  else
    match subparser name ops with
    | Some f => Returned {| operation := name; func := f; a := x; b := y |}
    | None => Raised (SystemExit 2)
    end.

(** [main]: the value returned (or the exception that escapes) and the
    streams afterwards.  [isinstance(result, float)] holds for every result
    of the four functions on floats, so the test is [result.is_integer()]. *)
Definition main (argv : string * float * float) (w : World)
    : Outcome Z * World :=
  match parse_args argv with
  | Raised e => (Raised e, w)
  | Returned args =>
      match func args (a args) (b args) with
      | Raised ZeroDivisionError =>
          (Returned 1,
           print_stderr "Error: Division by zero is not allowed." w)
      | Raised e => (Raised e, w)
      | Returned result =>
          if is_integer result then
            match int_of_float result with
            | Returned n => (Returned 0, print (str_of_int n) w)
            | Raised e => (Raised e, w)
            end
          else (Returned 0, print (float_repr result) w)
      end
  end.

(** [raise SystemExit(main())] in a fresh process. *)
Definition run (argv : string * float * float) : Process :=
  let '(r, w) := main argv empty in
  {| out := stdout w; err := stderr w; exit_code := exit_status r |}.

(** The sub-command of each operation. *)
Definition subcommand (op : Operation) : string :=
  match op with
  | Add => "add"
  | Subtract => "sub"
  | Multiply => "mul"
  | Divide => "div"
  end.

(** The dispatcher: what [args.func(args.a, args.b)] yields for the
    request [(op, x, y)]. *)
Definition evaluate (op : Operation) (x y : float) : Outcome float :=
  bind (parse_args (subcommand op, x, y))
       (fun args => func args (a args) (b args)).

End TestRepo.

(** ** [test_folder/calculator/calculator.py] *)

Module TestFolder.
Import Py.

(** [result] holds a float or, after a division by zero, a string. *)
Inductive Value : Type :=
| VFloat (x : float)
| VStr (s : string).

Definition add (a b : float) : float := float_add a b.

Definition subtract (a b : float) : float := float_sub a b.

Definition multiply (a b : float) : float := float_mul a b.

Definition divide (a b : float) : Outcome Value :=
  if eq_zero b then Returned (VStr "Error: Division by zero")
  else bind (float_truediv a b) (fun q => Returned (VFloat q)).

Record Namespace : Type :=
  { operation : string; a : float; b : float }.

Definition choices : list string :=
  ["add"; "subtract"; "multiply"; "divide"].

(** [parse_args] ends the process with status 0 on the help option and
    with status 2 on any other word outside [choices]. *)
Definition parse_args (argv : string * float * float) : Outcome Namespace :=
  let '(name, x, y) := argv in
  if help_flag name then Raised (SystemExit 0)
  else if existsb (String.eqb name) choices
  then Returned {| operation := name; a := x; b := y |}
  else Raised (SystemExit 2).

(** The [if]/[elif] chain of [main]; with no branch taken [result] stays
    unbound and its use raises. *)
Definition dispatch (args : Namespace) : Outcome Value :=
  if String.eqb (operation args) "add" then
    Returned (VFloat (add (a args) (b args)))
  else if String.eqb (operation args) "subtract" then
    Returned (VFloat (subtract (a args) (b args)))
  else if String.eqb (operation args) "multiply" then
    Returned (VFloat (multiply (a args) (b args)))
  else if String.eqb (operation args) "divide" then
    divide (a args) (b args)
  else Raised UnboundLocalError.

(** [f"{result}"]: [str] of a float is its [repr]; a string is itself. *)
Definition format_value (v : Value) : string :=
  match v with
  | VFloat x => float_repr x
  | VStr s => s
  end.

Definition main (argv : string * float * float) (w : World)
    : Outcome unit * World :=
  match parse_args argv with
  | Raised e => (Raised e, w)
  | Returned args =>
      match dispatch args with
      | Raised e => (Raised e, w)
      | Returned result =>
          (Returned tt, print ("Result: " ++ format_value result) w)
      end
  end.

(** [main()] in a fresh process: status 0 unless an exception escapes. *)
Definition run (argv : string * float * float) : Process :=
  let '(r, w) := main argv empty in
  {| out := stdout w; err := stderr w;
     exit_code := exit_status (bind r (fun _ => Returned 0)) |}.

Definition choice (op : Operation) : string :=
  match op with
  | Add => "add"
  | Subtract => "subtract"
  | Multiply => "multiply"
  | Divide => "divide"
  end.

(** The dispatcher: the value [result] is bound to for the request
    [(op, x, y)]. *)
Definition evaluate (op : Operation) (x y : float) : Outcome Value :=
  bind (parse_args (choice op, x, y)) dispatch.

End TestFolder.

(** ** The two programs again, every call as a call that may print

    The same source, transliterated statement by statement with the streams
    passed through every call, the arithmetic functions included: a function
    that printed would show here. *)

Module TestRepoIO.
Import Py.

Definition operator_add (a b : float) : IO float := ret (float_add a b).
Definition operator_sub (a b : float) : IO float := ret (float_sub a b).
Definition operator_mul (a b : float) : IO float := ret (float_mul a b).
Definition operator_truediv (a b : float) : IO float :=
  lift (float_truediv a b).

Definition ops : list (string * (float -> float -> IO float) * string) :=
  [ ("add", operator_add, "Add two numbers (a + b)");
    ("sub", operator_sub, "Subtract b from a (a - b)");
    ("mul", operator_mul, "Multiply two numbers (a * b)");
    ("div", operator_truediv, "Divide a by b (a / b)") ].

Record Namespace : Type :=
  { operation : string;
    func : float -> float -> IO float;
    a : float;
    b : float }.

Fixpoint subparser (name : string)
    (table : list (string * (float -> float -> IO float) * string))
    : option (float -> float -> IO float) :=
  match table with
  | [] => None
  | (n, f, _) :: rest => if String.eqb name n then Some f else subparser name rest
  end.

Definition parse_args (argv : string * float * float) : IO Namespace :=
  let '(name, x, y) := argv in
  if help_flag name then raise (SystemExit 0)
  else
    match subparser name ops with
    | Some f => ret {| operation := name; func := f; a := x; b := y |}
    | None => raise (SystemExit 2)
    end.

(** The lines of [main] after the [try] statement. *)
Definition show (result : float) : IO Z :=
  if is_integer result then
    and_then (lift (int_of_float result)) (fun n =>
    and_then (print_io (str_of_int n)) (fun _ => ret 0))
  else and_then (print_io (float_repr result)) (fun _ => ret 0).

Definition main (argv : string * float * float) : IO Z :=
  and_then (parse_args argv) (fun args w =>
    match func args (a args) (b args) w with
    | (Raised ZeroDivisionError, w') =>
        and_then (print_stderr_io "Error: Division by zero is not allowed.")
                 (fun _ => ret 1) w'
    | (Raised e, w') => (Raised e, w')
    | (Returned result, w') => show result w'
    end).

(** The dispatcher: the call [args.func(args.a, args.b)]. *)
Definition evaluate (op : Operation) (x y : float) : IO float :=
  and_then (parse_args (TestRepo.subcommand op, x, y))
           (fun args => func args (a args) (b args)).

End TestRepoIO.

Module TestFolderIO.
Import Py.

Definition add (a b : float) : IO float := ret (float_add a b).

Definition subtract (a b : float) : IO float := ret (float_sub a b).

Definition multiply (a b : float) : IO float := ret (float_mul a b).

Definition divide (a b : float) : IO TestFolder.Value :=
  if eq_zero b then ret (TestFolder.VStr "Error: Division by zero")
  else and_then (lift (float_truediv a b))
                (fun q => ret (TestFolder.VFloat q)).

Definition dispatch (args : TestFolder.Namespace) : IO TestFolder.Value :=
  if String.eqb (TestFolder.operation args) "add" then
    and_then (add (TestFolder.a args) (TestFolder.b args))
             (fun r => ret (TestFolder.VFloat r))
  else if String.eqb (TestFolder.operation args) "subtract" then
    and_then (subtract (TestFolder.a args) (TestFolder.b args))
             (fun r => ret (TestFolder.VFloat r))
  else if String.eqb (TestFolder.operation args) "multiply" then
    and_then (multiply (TestFolder.a args) (TestFolder.b args))
             (fun r => ret (TestFolder.VFloat r))
  else if String.eqb (TestFolder.operation args) "divide" then
    divide (TestFolder.a args) (TestFolder.b args)
  else raise UnboundLocalError.

Definition main (argv : string * float * float) : IO unit :=
  and_then (lift (TestFolder.parse_args argv)) (fun args =>
  and_then (dispatch args) (fun result =>
  print_io ("Result: " ++ TestFolder.format_value result))).

(** The dispatcher: the call that binds [result]. *)
Definition evaluate (op : Operation) (x y : float) : IO TestFolder.Value :=
  and_then (lift (TestFolder.parse_args (TestFolder.choice op, x, y)))
           dispatch.

End TestFolderIO.

(** ** Notions used to state the properties *)

(** The request is a division whose second operand is zero. *)
Definition division_by_zero (op : Operation) (b : float) : bool :=
  match op with
  | Divide => Py.eq_zero b
  | _ => false
  end.

(** The arithmetic result the specification assigns to a request. *)
Definition arith (op : Operation) (a b : float) : float :=
  match op with
  | Add => (a + b)%float
  | Subtract => (a - b)%float
  | Multiply => (a * b)%float
  | Divide => (a / b)%float
  end.

(** [r1 == r2] for two results of [test_repo]'s dispatcher: both are
    values, and the two floats are equal under [==]. *)
Definition results_eq (r1 r2 : Py.Outcome float) : bool :=
  match r1, r2 with
  | Py.Returned x, Py.Returned y => Py.float_eq x y
  | _, _ => false
  end.

(** [v1 == v2] for two values of [test_folder]: two floats equal under
    [==], or the same string. *)
Definition value_eq (v1 v2 : TestFolder.Value) : bool :=
  match v1, v2 with
  | TestFolder.VFloat x, TestFolder.VFloat y => Py.float_eq x y
  | TestFolder.VStr s, TestFolder.VStr t => String.eqb s t
  | _, _ => false
  end.

Definition folder_results_eq (r1 r2 : Py.Outcome TestFolder.Value) : bool :=
  match r1, r2 with
  | Py.Returned v1, Py.Returned v2 => value_eq v1 v2
  | _, _ => false
  end.

(** The string has a decimal point. *)
Fixpoint has_point (s : string) : bool :=
  match s with
  | EmptyString => false
  | String c s' => orb (Ascii.eqb c ".") (has_point s')
  end.

(** The line [test_repo]'s [main] prints for the result [v]: the integer
    numeral of [int(v)] when [v.is_integer()], the [repr] of [v] otherwise. *)
Definition printed_line (v : float) : string :=
  if Py.is_integer v then
    match Py.int_of_float v with
    | Py.Returned n => Py.str_of_int n
    | Py.Raised _ => EmptyString
    end
  else Py.float_repr v.

(** The float is a zero or a finite non-zero number (no infinity, no NaN). *)
Definition finite (x : float) : bool :=
  match Prim2SF x with
  | S754_zero _ | S754_finite _ _ _ => true
  | S754_infinity _ | S754_nan => false
  end.

(** The integer [n] is exactly the value of the float [x], which for a
    non-zero finite [x] is [m * 2^e] with the sign [s]. *)
Definition exactly (n : Z) (x : float) : Prop :=
  match Prim2SF x with
  | S754_zero _ => n = 0
  | S754_finite s m e =>
      n * 2 ^ Z.max (- e) 0
      = (if s then - Z.pos m else Z.pos m) * 2 ^ Z.max e 0
  | S754_infinity _ | S754_nan => False
  end.

(** A printed line read back as a decimal integer. *)
Definition read_int (line : string) : option Z :=
  option_map Z.of_int (NilEmpty.int_of_string line).

(** The float 1.0 in the reference representation. *)
Definition SFone64 : spec_float := S754_finite false 4503599627370496 (-52).

(** ** Binary64 arithmetic: exact cases of the reference implementation *)

Lemma bounded_inv (m : positive) (e : Z) :
  bounded prec emax m e = true ->
  fexp prec emax (Z.pos (digits2_pos m) + e) = e /\ e <= 971.
Proof.
  unfold bounded, canonical_mantissa. intros H.
  apply andb_true_iff in H. destruct H as [H1 H2].
  apply Z.eqb_eq in H1. apply Z.leb_le in H2.
  split; [exact H1 | exact H2].
Qed.

(** Rounding a mantissa that already fits leaves it alone. *)
Lemma round_exact (s : bool) (m : positive) (e : Z) :
  bounded prec emax m e = true ->
  binary_round_aux prec emax s (Z.pos m) e loc_Exact = S754_finite s m e.
Proof.
  intros H. destruct (bounded_inv m e H) as [Hc He].
  unfold binary_round_aux, shr_fexp. cbn [Zdigits2 shr_record_of_loc].
  rewrite Hc, Z.sub_diag.
  cbn [shr shr_m loc_of_shr_record round_nearest_even Zdigits2
       shr_record_of_loc].
  rewrite Hc, Z.sub_diag. cbn [shr shr_m].
  replace (e <=? emax - prec) with true; [reflexivity|].
  symmetry. apply Z.leb_le. exact He.
Qed.

(** One spare low bit, zero, is shifted out exactly. *)
Lemma round_shifted_1 (s : bool) (m : positive) (e : Z) :
  bounded prec emax m e = true ->
  binary_round_aux prec emax s (Z.pos m~0) (e - 1) loc_Exact
  = S754_finite s m e.
Proof.
  intros H. destruct (bounded_inv m e H) as [Hc He].
  unfold binary_round_aux, shr_fexp.
  cbn [Zdigits2 shr_record_of_loc digits2_pos].
  replace (Z.pos (Pos.succ (digits2_pos m)) + (e - 1))
    with (Z.pos (digits2_pos m) + e) by lia.
  rewrite Hc. replace (e - (e - 1)) with 1 by lia.
  cbn [shr iter_pos shr_1 orb shr_m loc_of_shr_record round_nearest_even
       Zdigits2 shr_record_of_loc].
  replace (e - 1 + 1) with e by lia.
  rewrite Hc, Z.sub_diag. cbn [shr shr_m].
  replace (e <=? emax - prec) with true; [reflexivity|].
  symmetry. apply Z.leb_le. exact He.
Qed.

(** So are the fifty-two zero bits a product with 2^52 appends. *)
Lemma round_shifted_52 (s : bool) (m : positive) (e : Z) :
  bounded prec emax m e = true ->
  binary_round_aux prec emax s (Z.pos (m * 4503599627370496)) (e + -52)
    loc_Exact
  = S754_finite s m e.
Proof.
  intros H. destruct (bounded_inv m e H) as [Hc He].
  rewrite Pos.mul_comm. cbn [Pos.mul].
  unfold binary_round_aux, shr_fexp.
  cbn [Zdigits2 shr_record_of_loc digits2_pos].
  rewrite !Pos2Z.inj_succ.
  replace (_ + (e + -52)) with (Z.pos (digits2_pos m) + e) by lia.
  rewrite Hc. replace (e - (e + -52)) with 52 by lia.
  cbn [shr iter_pos shr_1 orb shr_m loc_of_shr_record round_nearest_even
       Zdigits2 shr_record_of_loc].
  replace (e + -52 + 52) with e by lia.
  rewrite Hc, Z.sub_diag. cbn [shr shr_m].
  replace (e <=? emax - prec) with true; [reflexivity|].
  symmetry. apply Z.leb_le. exact He.
Qed.

Lemma SF64mul_one (x : spec_float) :
  valid_binary x = true -> SF64mul x SFone64 = x.
Proof.
  destruct x as [s | s | | s m e]; intros H;
    unfold SF64mul, SFmul, SFone64; rewrite ?xorb_false_r;
    try reflexivity.
  apply round_shifted_52. exact H.
Qed.

Lemma div_eucl_split (a b q r : Z) :
  Z.div_eucl a b = (q, r) -> q = a / b /\ r = a mod b.
Proof.
  intros H. unfold Z.div, Z.modulo. rewrite H. split; reflexivity.
Qed.

Lemma SF64div_one (x : spec_float) :
  valid_binary x = true -> SF64div x SFone64 = x.
Proof.
  destruct x as [s | s | | s m e]; intros H;
    unfold SF64div, SFdiv, SFone64; rewrite ?xorb_false_r;
    try reflexivity.
  cbn [valid_binary] in H.
  destruct (bounded_inv m e H) as [Hc He].
  unfold SFdiv_core_binary. cbn [Zdigits2 digits2_pos].
  set (d := Z.pos (digits2_pos m)) in *.
  assert (Hd : 0 < d) by (unfold d; lia).
  clearbody d.
  unfold fexp, SpecFloat.emin in Hc |- *.
  change prec with 53 in *. change emax with 1024 in *.
  change (Z.pos (Pos.succ _)) with 53.
  change IntDef.Z.max with Z.max in *. change IntDef.Z.min with Z.min in *.
  destruct (Z.eq_dec e (-1074)) as [Hsub | Hnorm].
  - (* least exponent: the quotient is the mantissa itself *)
    assert (E1 : Z.max (d + e - (53 + -52) - 53) (3 - 1024 - 53) = e)
      by lia.
    assert (E2 : Z.min e (e - -52) = e) by lia.
    assert (E3 : e - -52 - e = 52) by lia.
    rewrite E1, E2, E3.
    rewrite Z.shiftl_mul_pow2 by lia.
    destruct (Z.div_eucl (Z.pos m * 2 ^ 52) 4503599627370496)
      as [q r] eqn:Hqr.
    apply div_eucl_split in Hqr. destruct Hqr as [Hq Hr].
    change 4503599627370496 with (2 ^ 52) in Hq, Hr.
    rewrite Z.div_mul in Hq by lia. rewrite Z.mod_mul in Hr by lia.
    subst q r. cbn [new_location Z.even new_location_even Z.eqb].
    apply round_exact. exact H.
  - (* otherwise one more bit is produced, and rounded away exactly *)
    assert (E1 : Z.max (d + e - (53 + -52) - 53) (3 - 1024 - 53) = e - 1)
      by lia.
    assert (E2 : Z.min (e - 1) (e - -52) = e - 1) by lia.
    assert (E3 : e - -52 - (e - 1) = 53) by lia.
    rewrite E1, E2, E3.
    rewrite Z.shiftl_mul_pow2 by lia.
    destruct (Z.div_eucl (Z.pos m * 2 ^ 53) 4503599627370496)
      as [q r] eqn:Hqr.
    apply div_eucl_split in Hqr. destruct Hqr as [Hq Hr].
    replace (Z.pos m * 2 ^ 53) with (Z.pos m~0 * 2 ^ 52) in Hq, Hr by lia.
    change 4503599627370496 with (2 ^ 52) in Hq, Hr.
    rewrite Z.div_mul in Hq by lia. rewrite Z.mod_mul in Hr by lia.
    subst q r. cbn [new_location Z.even new_location_even Z.eqb].
    apply round_shifted_1. exact H.
Qed.

Lemma SF64add_comm (x y : spec_float) : SF64add x y = SF64add y x.
Proof.
  unfold SF64add, SFadd.
  destruct x as [sx | sx | | sx mx ex], y as [sy | sy | | sy my ey];
    try reflexivity;
    try (destruct sx, sy; reflexivity).
  cbv zeta. rewrite (Z.min_comm ey ex). f_equal. apply Z.add_comm.
Qed.

Lemma SF64mul_comm (x y : spec_float) : SF64mul x y = SF64mul y x.
Proof.
  unfold SF64mul, SFmul.
  destruct x as [sx | sx | | sx mx ex], y as [sy | sy | | sy my ey];
    try reflexivity;
    try (rewrite (xorb_comm sx sy); reflexivity).
  rewrite (xorb_comm sx sy), (Pos.mul_comm mx my), (Z.add_comm ex ey).
  reflexivity.
Qed.

Lemma SF64add_zero (x : spec_float) :
  SF64add x (S754_zero false) = x \/
  (x = S754_zero true /\ SF64add x (S754_zero false) = S754_zero false).
Proof.
  destruct x as [[|] | s | | s m e]; cbn; auto.
Qed.

Lemma SFcompare_refl (x : spec_float) :
  x <> S754_nan -> SFcompare x x = Some Eq.
Proof.
  destruct x as [s | s | | s m e]; intros H; cbn [SFcompare];
    try reflexivity; try congruence.
  - destruct s; reflexivity.
  - rewrite Z.compare_refl.
    change (Pos.compare_cont Eq m m) with (Pos.compare m m).
    rewrite Pos.compare_refl. destruct s; reflexivity.
Qed.


(** ** The same facts on Python floats *)

Lemma float_mul_one (a : float) : (a * 1)%float = a.
Proof.
  apply Prim2SF_inj. rewrite mul_spec.
  change (Prim2SF 1) with SFone64. apply SF64mul_one, Prim2SF_valid.
Qed.

Lemma float_div_one (a : float) : (a / 1)%float = a.
Proof.
  apply Prim2SF_inj. rewrite div_spec.
  change (Prim2SF 1) with SFone64. apply SF64div_one, Prim2SF_valid.
Qed.

Lemma float_add_comm (a b : float) : (a + b)%float = (b + a)%float.
Proof.
  apply Prim2SF_inj. rewrite !add_spec. apply SF64add_comm.
Qed.

Lemma float_mul_comm (a b : float) : (a * b)%float = (b * a)%float.
Proof.
  apply Prim2SF_inj. rewrite !mul_spec. apply SF64mul_comm.
Qed.

(** Adding [+0.0] changes nothing but the sign of [-0.0]. *)
Lemma float_add_zero (a : float) :
  (a + 0)%float = a \/ (a = neg_zero /\ (a + 0)%float = 0%float).
Proof.
  destruct (SF64add_zero (Prim2SF a)) as [H | [Hz H]].
  - left. apply Prim2SF_inj. rewrite add_spec. exact H.
  - right. split.
    + apply Prim2SF_inj. exact Hz.
    + apply Prim2SF_inj. rewrite add_spec. exact H.
Qed.

(** [x == x] fails on NaN only. *)
Lemma float_eq_refl (x : float) : Py.float_eq x x = negb (is_nan x).
Proof.
  unfold is_nan, Py.float_eq. rewrite negb_involutive. reflexivity.
Qed.

Lemma float_eq_add_zero (a : float) :
  Py.float_eq (a + 0)%float a = negb (is_nan a).
Proof.
  destruct (float_add_zero a) as [H | [Hz H]].
  - rewrite H. apply float_eq_refl.
  - rewrite H, Hz. reflexivity.
Qed.

(** ** What the two dispatchers compute *)

Lemma test_repo_evaluate (op : Operation) (a b : float) :
  TestRepo.evaluate op a b =
  if division_by_zero op b then Py.Raised Py.ZeroDivisionError
  else Py.Returned (arith op a b).
Proof.
  destruct op; reflexivity.
Qed.

Lemma test_folder_evaluate (op : Operation) (a b : float) :
  TestFolder.evaluate op a b =
  if division_by_zero op b
  then Py.Returned (TestFolder.VStr "Error: Division by zero")
  else Py.Returned (TestFolder.VFloat (arith op a b)).
Proof.
  destruct op; try reflexivity.
  change (TestFolder.evaluate Divide a b) with (TestFolder.divide a b).
  unfold TestFolder.divide, Py.float_truediv, division_by_zero.
  destruct (Py.eq_zero b); reflexivity.
Qed.

(** [int] never raises on a float that [is_integer] accepts. *)
Lemma int_of_integer (v : float) :
  Py.is_integer v = true -> exists n, Py.int_of_float v = Py.Returned n.
Proof.
  unfold Py.is_integer, Py.int_of_float.
  destruct (Prim2SF v) as [s | s | | s m e]; intros H;
    try discriminate; eexists; reflexivity.
Qed.

(** The printing half of [test_repo]'s [main]. *)
Lemma test_repo_main (op : Operation) (a b : float) (w : Py.World) :
  TestRepo.main (TestRepo.subcommand op, a, b) w =
  if division_by_zero op b
  then (Py.Returned 1,
        Py.print_stderr "Error: Division by zero is not allowed." w)
  else (Py.Returned 0, Py.print (printed_line (arith op a b)) w).
Proof.
  assert (Hmain : TestRepo.main (TestRepo.subcommand op, a, b) w =
    match TestRepo.evaluate op a b with
    | Py.Raised Py.ZeroDivisionError =>
        (Py.Returned 1,
         Py.print_stderr "Error: Division by zero is not allowed." w)
    | Py.Raised e => (Py.Raised e, w)
    | Py.Returned result =>
        if Py.is_integer result then
          match Py.int_of_float result with
          | Py.Returned n => (Py.Returned 0, Py.print (Py.str_of_int n) w)
          | Py.Raised e => (Py.Raised e, w)
          end
        else (Py.Returned 0, Py.print (Py.float_repr result) w)
    end) by (destruct op; reflexivity).
  rewrite Hmain, test_repo_evaluate.
  destruct (division_by_zero op b); [reflexivity|].
  unfold printed_line.
  destruct (Py.is_integer (arith op a b)) eqn:Hint; [|reflexivity].
  destruct (int_of_integer _ Hint) as [n Hn]. rewrite Hn. reflexivity.
Qed.

Lemma test_folder_main (op : Operation) (a b : float) (w : Py.World) :
  TestFolder.main (TestFolder.choice op, a, b) w =
  (Py.Returned tt,
   Py.print
     ("Result: " ++
      (if division_by_zero op b then "Error: Division by zero"
       else Py.float_repr (arith op a b))) w).
Proof.
  assert (Hmain : TestFolder.main (TestFolder.choice op, a, b) w =
    match TestFolder.evaluate op a b with
    | Py.Raised e => (Py.Raised e, w)
    | Py.Returned result =>
        (Py.Returned tt,
         Py.print ("Result: " ++ TestFolder.format_value result) w)
    end) by (destruct op; reflexivity).
  rewrite Hmain, test_folder_evaluate.
  destruct (division_by_zero op b); reflexivity.
Qed.

(** A decimal numeral of an integer has no decimal point. *)
Lemma string_of_uint_no_point (d : Decimal.uint) :
  has_point (NilEmpty.string_of_uint d) = false.
Proof.
  induction d; cbn [NilEmpty.string_of_uint has_point]; try reflexivity;
    rewrite IHd; reflexivity.
Qed.

Lemma str_of_int_no_point (n : Z) : has_point (Py.str_of_int n) = false.
Proof.
  unfold Py.str_of_int, NilEmpty.string_of_int.
  destruct (Z.to_int n) as [d | d].
  - apply string_of_uint_no_point.
  - cbn [has_point]. rewrite string_of_uint_no_point. reflexivity.
Qed.

(** ** Division by zero *)

(** C1, as stated, fails: in [test_folder] dividing by zero is not a failure.
    [divide(5, 0)] returns the string ["Error: Division by zero"] as an
    ordinary value, and so does the dispatch on ["divide"]. *)
Lemma sentinel_is_returned :
  TestFolder.divide 5 0
    = Py.Returned (TestFolder.VStr "Error: Division by zero") /\
  TestFolder.evaluate Divide 5 0
    = Py.Returned (TestFolder.VStr "Error: Division by zero") /\
  TestFolder.evaluate Divide 5 0 <> Py.Raised Py.ZeroDivisionError.
Proof.
  split; [reflexivity | split; [reflexivity | discriminate]].
Qed.

(** C1, amended: for every [a], [test_repo]'s division of [a] by [0.0] raises
    [ZeroDivisionError], and it raises exactly when [b == 0.0];
    [test_folder]'s [divide(a, 0.0)] returns the sentinel string
    ["Error: Division by zero"], exactly when [b == 0]. *)
Theorem divide_by_zero (a b : float) :
  TestRepo.operator_truediv a 0 = Py.Raised Py.ZeroDivisionError /\
  TestRepo.evaluate Divide a 0 = Py.Raised Py.ZeroDivisionError /\
  (TestRepo.evaluate Divide a b = Py.Raised Py.ZeroDivisionError
   <-> Py.float_eq b 0 = true) /\
  TestFolder.divide a 0
    = Py.Returned (TestFolder.VStr "Error: Division by zero") /\
  TestFolder.evaluate Divide a 0
    = Py.Returned (TestFolder.VStr "Error: Division by zero") /\
  (TestFolder.evaluate Divide a b
     = Py.Returned (TestFolder.VStr "Error: Division by zero")
   <-> Py.float_eq b 0 = true).
Proof.
  repeat split; try reflexivity.
  - rewrite test_repo_evaluate. unfold division_by_zero, Py.eq_zero, Py.float_eq.
    destruct (b =? 0)%float; [reflexivity | discriminate].
  - intros H. rewrite test_repo_evaluate. unfold division_by_zero, Py.eq_zero.
    unfold Py.float_eq in H. rewrite H. reflexivity.
  - rewrite test_folder_evaluate.
    unfold division_by_zero, Py.eq_zero, Py.float_eq.
    destruct (b =? 0)%float; [reflexivity | discriminate].
  - intros H. rewrite test_folder_evaluate.
    unfold division_by_zero, Py.eq_zero.
    unfold Py.float_eq in H. rewrite H. reflexivity.
Qed.

(** ** The arithmetic results *)

(** C2: [Add], [Subtract] and [Multiply] return [a + b], [a - b] and [a * b]
    (binary64 operations) in both programs, for all operands and so for all
    finite ones. *)
Theorem add_subtract_multiply (a b : float) :
  TestRepo.evaluate Add a b = Py.Returned (a + b)%float /\
  TestRepo.evaluate Subtract a b = Py.Returned (a - b)%float /\
  TestRepo.evaluate Multiply a b = Py.Returned (a * b)%float /\
  TestFolder.evaluate Add a b = Py.Returned (TestFolder.VFloat (a + b)%float) /\
  TestFolder.evaluate Subtract a b
    = Py.Returned (TestFolder.VFloat (a - b)%float) /\
  TestFolder.evaluate Multiply a b
    = Py.Returned (TestFolder.VFloat (a * b)%float) /\
  TestFolder.add a b = (a + b)%float /\
  TestFolder.subtract a b = (a - b)%float /\
  TestFolder.multiply a b = (a * b)%float.
Proof.
  repeat split.
Qed.

(** C3: when [b] is not zero, [Divide] returns the binary64 quotient [a / b]
    in both programs, whatever that quotient is. *)
Theorem nonzero_division (a b : float) :
  Py.eq_zero b = false ->
  TestRepo.evaluate Divide a b = Py.Returned (a / b)%float /\
  TestFolder.evaluate Divide a b
    = Py.Returned (TestFolder.VFloat (a / b)%float).
Proof.
  intros Hb. rewrite test_repo_evaluate, test_folder_evaluate.
  unfold division_by_zero. rewrite Hb. split; reflexivity.
Qed.

(** An overflowing quotient is a success: 2^1023 / 2^-1074 is [inf]. *)
Lemma nonzero_division_overflow :
  Py.eq_zero 0x1p-1074 = false /\
  TestRepo.evaluate Divide 0x1p1023 0x1p-1074 = Py.Returned infinity /\
  TestFolder.evaluate Divide 0x1p1023 0x1p-1074
    = Py.Returned (TestFolder.VFloat infinity).
Proof.
  split; [reflexivity | exact (nonzero_division 0x1p1023 0x1p-1074 eq_refl)].
Defined.

(** ** The process: output and exit status *)

(** C4, as stated, fails in [test_folder]: [divide 5 0] prints to standard
    output, writes nothing to standard error and exits with status 0. *)
Lemma sentinel_exits_zero :
  TestFolder.run ("divide", 5, 0)%float
    = {| out := ["Result: Error: Division by zero"]; err := [];
         exit_code := 0 |} /\
  exit_code (TestFolder.run ("divide", 5, 0)%float) <> 1.
Proof.
  split; [reflexivity | discriminate].
Qed.

(** C4, amended: for every operation and operands, [test_repo] prints one
    line with the formatted result to standard output and exits with 0,
    except on a division by zero, where it prints one line to standard error
    and exits with 1; [test_folder] always prints one line [Result: ...] to
    standard output and exits with 0, the line carrying the sentinel string
    on a division by zero. *)
Theorem process_outcome (op : Operation) (a b : float) :
  TestRepo.run (TestRepo.subcommand op, a, b) =
    (if division_by_zero op b
     then {| out := [];
             err := ["Error: Division by zero is not allowed."];
             exit_code := 1 |}
     else {| out := [printed_line (arith op a b)]; err := [];
             exit_code := 0 |}) /\
  TestFolder.run (TestFolder.choice op, a, b) =
    {| out := ["Result: " ++
               (if division_by_zero op b then "Error: Division by zero"
                else Py.float_repr (arith op a b))];
       err := []; exit_code := 0 |}.
Proof.
  unfold TestRepo.run, TestFolder.run.
  rewrite test_repo_main, test_folder_main.
  destruct (division_by_zero op b); split; reflexivity.
Qed.

(** ** Formatting of the result *)

(** C5, as stated, fails in [test_folder]: [add 2 3] is printed as
    [Result: 5.0], with a decimal point. *)
Lemma integral_result_keeps_point :
  TestFolder.evaluate Add 2 3 = Py.Returned (TestFolder.VFloat 5) /\
  Py.is_integer 5 = true /\
  out (TestFolder.run ("add", 2, 3)%float) = ["Result: 5.0"] /\
  has_point "Result: 5.0" = true.
Proof.
  repeat split.
Qed.

(** C5, amended: in [test_repo], whichever operation produced the result
    [v], the line printed is the integer numeral of [int(v)], without a
    decimal point, when [v] has no fractional part, and the [repr] of [v]
    otherwise; in [test_folder] the line is [Result: ] followed by the
    [repr] of [v] for every result, integral or not. *)
Theorem result_rendering (op : Operation) (a b v : float) :
  TestRepo.evaluate op a b = Py.Returned v ->
  out (TestRepo.run (TestRepo.subcommand op, a, b)) = [printed_line v] /\
  (Py.is_integer v = true /\
     (exists n, Py.int_of_float v = Py.Returned n /\
                printed_line v = Py.str_of_int n) /\
     has_point (printed_line v) = false
   \/
   Py.is_integer v = false /\ printed_line v = Py.float_repr v) /\
  out (TestFolder.run (TestFolder.choice op, a, b))
    = ["Result: " ++ Py.float_repr v].
Proof.
  intros Hv. unfold TestRepo.run, TestFolder.run.
  rewrite test_repo_main, test_folder_main. rewrite test_repo_evaluate in Hv.
  destruct (division_by_zero op b); [discriminate|].
  injection Hv as <-. split; [reflexivity | split; [|reflexivity]].
  unfold printed_line.
  destruct (Py.is_integer (arith op a b)) eqn:Hint.
  - left. destruct (int_of_integer _ Hint) as [n Hn]. rewrite Hn.
    split; [reflexivity | split].
    + exists n. split; reflexivity.
    + apply str_of_int_no_point.
  - right. split; reflexivity.
Qed.

(** On [add 2 3] the result 5.0 is printed as [5] by [test_repo] and as
    [Result: 5.0] by [test_folder]; on [10 / 4] both print the [repr] 2.5. *)
Lemma result_rendering_examples :
  (TestRepo.evaluate Add 2 3 = Py.Returned 5%float /\
   out (TestRepo.run ("add", 2, 3)%float) = ["5"] /\
   out (TestFolder.run ("add", 2, 3)%float) = ["Result: 5.0"]) /\
  (TestRepo.evaluate Divide 10 4 = Py.Returned 2.5%float /\
   out (TestRepo.run ("div", 10, 4)%float) = ["2.5"] /\
   out (TestFolder.run ("divide", 10, 4)%float) = ["Result: 2.5"]).
Proof.
  split; (split; [reflexivity|]).
  - destruct (result_rendering Add 2 3 5 eq_refl) as [Hrepo [_ Hfolder]].
    split; [exact Hrepo | exact Hfolder].
  - destruct (result_rendering Divide 10 4 2.5 eq_refl) as [Hrepo [_ Hfolder]].
    split; [exact Hrepo | exact Hfolder].
Defined.

(** The scenarios of the specification, on [test_repo]. *)
Example scenario_add_2_3 :
  TestRepo.run ("add", 2, 3)%float
  = {| out := ["5"]; err := []; exit_code := 0 |}.
Proof. reflexivity. Qed.

Example scenario_div_10_2 :
  TestRepo.run ("div", 10, 2)%float
  = {| out := ["5"]; err := []; exit_code := 0 |}.
Proof. reflexivity. Qed.

Example scenario_div_10_4 :
  TestRepo.run ("div", 10, 4)%float
  = {| out := ["2.5"]; err := []; exit_code := 0 |}.
Proof. reflexivity. Qed.

Example scenario_div_5_0 :
  TestRepo.run ("div", 5, 0)%float
  = {| out := []; err := ["Error: Division by zero is not allowed."];
       exit_code := 1 |}.
Proof. reflexivity. Qed.

Example scenario_mul_3_3 :
  TestRepo.run ("mul", 3, 3)%float
  = {| out := ["9"]; err := []; exit_code := 0 |}.
Proof. reflexivity. Qed.

(** ** The two programs side by side *)

(** The two division functions away from zero. *)
Lemma divide_functions_nonzero (a b : float) :
  Py.eq_zero b = false ->
  TestRepo.operator_truediv a b = Py.Returned (a / b)%float /\
  TestFolder.divide a b = Py.Returned (TestFolder.VFloat (a / b)%float).
Proof.
  intros Hb.
  unfold TestRepo.operator_truediv, TestFolder.divide, Py.float_truediv.
  rewrite Hb. split; reflexivity.
Qed.

(** C6: the arithmetic functions of [test_folder] return what the
    [operator] functions of [test_repo] return, and for a non-zero [b] both
    divisions return [a / b]; hence the two dispatchers agree on every
    request that is not a division by zero. *)
Theorem variants_agree (op : Operation) (a b : float) :
  TestRepo.operator_add a b = Py.Returned (TestFolder.add a b) /\
  TestRepo.operator_sub a b = Py.Returned (TestFolder.subtract a b) /\
  TestRepo.operator_mul a b = Py.Returned (TestFolder.multiply a b) /\
  (Py.eq_zero b = false ->
     TestRepo.operator_truediv a b = Py.Returned (a / b)%float /\
     TestFolder.divide a b = Py.Returned (TestFolder.VFloat (a / b)%float)) /\
  (division_by_zero op b = false ->
     Py.bind (TestRepo.evaluate op a b)
             (fun v => Py.Returned (TestFolder.VFloat v))
     = TestFolder.evaluate op a b).
Proof.
  split; [reflexivity | split; [reflexivity | split; [reflexivity | split]]].
  - intros Hb. exact (divide_functions_nonzero a b Hb).
  - intros Hz. rewrite test_repo_evaluate, test_folder_evaluate, Hz.
    reflexivity.
Qed.

(** On 10 and 4 both divisions return 2.5. *)
Lemma variants_agree_on_10_4 :
  Py.eq_zero 4 = false /\
  TestRepo.operator_truediv 10 4 = Py.Returned 2.5%float /\
  TestFolder.divide 10 4 = Py.Returned (TestFolder.VFloat 2.5%float).
Proof.
  split; [reflexivity|].
  destruct (variants_agree Divide 10 4) as [_ [_ [_ [Hdiv _]]]].
  exact (Hdiv eq_refl).
Defined.

(** ** Algebraic properties *)

(** C7, as stated with [==], fails: [inf * 0] and [inf + -inf] are NaN in
    either order, and NaN is not [==] to itself. *)
Lemma commuted_nan_results_differ :
  TestRepo.evaluate Multiply infinity 0 = Py.Returned nan /\
  TestRepo.evaluate Multiply 0 infinity = Py.Returned nan /\
  results_eq (TestRepo.evaluate Multiply infinity 0)
             (TestRepo.evaluate Multiply 0 infinity) = false /\
  results_eq (TestRepo.evaluate Add infinity neg_infinity)
             (TestRepo.evaluate Add neg_infinity infinity) = false /\
  folder_results_eq (TestFolder.evaluate Multiply infinity 0)
                    (TestFolder.evaluate Multiply 0 infinity) = false /\
  folder_results_eq (TestFolder.evaluate Add infinity neg_infinity)
                    (TestFolder.evaluate Add neg_infinity infinity) = false.
Proof.
  repeat split.
Qed.

(** C7, amended: in both programs [Add] returns the same float for [(a, b)]
    and [(b, a)], and so does [Multiply]; the two results are [==] exactly
    when that float is not NaN. *)
Theorem add_multiply_commute (a b : float) :
  TestRepo.evaluate Add a b = TestRepo.evaluate Add b a /\
  TestRepo.evaluate Multiply a b = TestRepo.evaluate Multiply b a /\
  TestFolder.evaluate Add a b = TestFolder.evaluate Add b a /\
  TestFolder.evaluate Multiply a b = TestFolder.evaluate Multiply b a /\
  results_eq (TestRepo.evaluate Add a b) (TestRepo.evaluate Add b a)
  = negb (is_nan (a + b)) /\
  results_eq (TestRepo.evaluate Multiply a b) (TestRepo.evaluate Multiply b a)
  = negb (is_nan (a * b)) /\
  folder_results_eq (TestFolder.evaluate Add a b)
                    (TestFolder.evaluate Add b a)
  = negb (is_nan (a + b)) /\
  folder_results_eq (TestFolder.evaluate Multiply a b)
                    (TestFolder.evaluate Multiply b a)
  = negb (is_nan (a * b)).
Proof.
  rewrite !test_repo_evaluate, !test_folder_evaluate.
  cbn [division_by_zero arith results_eq folder_results_eq value_eq].
  rewrite (float_add_comm b a), (float_mul_comm b a).
  repeat split; apply float_eq_refl.
Qed.

(** C8, as stated, fails under either reading of "equals": with [==] none of
    the three results equals [a] when [a] is NaN, and as floats [-0.0 + 0] is
    [0.0], not [-0.0]. *)
Lemma identity_fails_on_nan_and_negative_zero :
  results_eq (TestRepo.evaluate Add nan 0) (Py.Returned nan) = false /\
  results_eq (TestRepo.evaluate Multiply nan 1) (Py.Returned nan) = false /\
  results_eq (TestRepo.evaluate Divide nan 1) (Py.Returned nan) = false /\
  folder_results_eq (TestFolder.evaluate Add nan 0)
                    (Py.Returned (TestFolder.VFloat nan)) = false /\
  TestRepo.evaluate Add neg_zero 0 = Py.Returned 0%float /\
  TestRepo.evaluate Add neg_zero 0 <> Py.Returned neg_zero /\
  TestFolder.evaluate Add neg_zero 0 <> Py.Returned (TestFolder.VFloat neg_zero).
Proof.
  repeat split.
  - intros H.
    apply (f_equal (fun r => match r with
                             | Py.Returned x => Prim2SF x
                             | Py.Raised _ => S754_nan
                             end)) in H.
    vm_compute in H. discriminate H.
  - intros H.
    apply (f_equal (fun r => match r with
                             | Py.Returned (TestFolder.VFloat x) => Prim2SF x
                             | _ => S754_nan
                             end)) in H.
    vm_compute in H. discriminate H.
Qed.

(** C8, amended: in both programs [Multiply] by 1 and [Divide] by 1 return
    [a] itself, and [Add] of 0 returns [a] itself except that [-0.0 + 0] is
    [0.0]; under [==] each of the three results equals [a] exactly when [a]
    is not NaN. *)
Theorem identity_elements (a : float) :
  TestRepo.evaluate Multiply a 1 = Py.Returned a /\
  TestRepo.evaluate Divide a 1 = Py.Returned a /\
  (TestRepo.evaluate Add a 0 = Py.Returned a \/
   a = neg_zero /\ TestRepo.evaluate Add a 0 = Py.Returned 0%float) /\
  TestFolder.evaluate Multiply a 1 = Py.Returned (TestFolder.VFloat a) /\
  TestFolder.evaluate Divide a 1 = Py.Returned (TestFolder.VFloat a) /\
  (TestFolder.evaluate Add a 0 = Py.Returned (TestFolder.VFloat a) \/
   a = neg_zero /\
   TestFolder.evaluate Add a 0 = Py.Returned (TestFolder.VFloat 0)) /\
  results_eq (TestRepo.evaluate Add a 0) (Py.Returned a)
  = negb (is_nan a) /\
  results_eq (TestRepo.evaluate Multiply a 1) (Py.Returned a)
  = negb (is_nan a) /\
  results_eq (TestRepo.evaluate Divide a 1) (Py.Returned a)
  = negb (is_nan a) /\
  folder_results_eq (TestFolder.evaluate Add a 0)
                    (Py.Returned (TestFolder.VFloat a))
  = negb (is_nan a) /\
  folder_results_eq (TestFolder.evaluate Multiply a 1)
                    (Py.Returned (TestFolder.VFloat a))
  = negb (is_nan a) /\
  folder_results_eq (TestFolder.evaluate Divide a 1)
                    (Py.Returned (TestFolder.VFloat a))
  = negb (is_nan a).
Proof.
  rewrite !test_repo_evaluate, !test_folder_evaluate.
  cbn [division_by_zero arith].
  change (Py.eq_zero 1) with false. cbv iota.
  cbn [results_eq folder_results_eq value_eq].
  rewrite float_mul_one, float_div_one, float_eq_add_zero, float_eq_refl.
  repeat split.
  - destruct (float_add_zero a) as [H | [Hz H]].
    + left. rewrite H. reflexivity.
    + right. split; [exact Hz | rewrite H; reflexivity].
  - destruct (float_add_zero a) as [H | [Hz H]].
    + left. rewrite H. reflexivity.
    + right. split; [exact Hz | rewrite H; reflexivity].
Qed.

(** ** Purity of the dispatcher *)

Lemma test_repo_evaluate_io (op : Operation) (a b : float) (w : Py.World) :
  TestRepoIO.evaluate op a b w = (TestRepo.evaluate op a b, w).
Proof.
  destruct op; reflexivity.
Qed.

Lemma test_folder_divide_io (a b : float) (w : Py.World) :
  TestFolderIO.divide a b w = (TestFolder.divide a b, w).
Proof.
  unfold TestFolderIO.divide, TestFolder.divide, Py.float_truediv.
  destruct (Py.eq_zero b); reflexivity.
Qed.

Lemma test_folder_evaluate_io (op : Operation) (a b : float) (w : Py.World) :
  TestFolderIO.evaluate op a b w = (TestFolder.evaluate op a b, w).
Proof.
  destruct op; try reflexivity.
  change (TestFolderIO.evaluate Divide a b w)
    with (TestFolderIO.divide a b w).
  change (TestFolder.evaluate Divide a b) with (TestFolder.divide a b).
  apply test_folder_divide_io.
Qed.

Lemma test_repo_main_io (op : Operation) (a b : float) (w : Py.World) :
  TestRepoIO.main (TestRepo.subcommand op, a, b) w
  = TestRepo.main (TestRepo.subcommand op, a, b) w.
Proof.
  assert (Hio : TestRepoIO.main (TestRepo.subcommand op, a, b) w =
    match TestRepoIO.evaluate op a b w with
    | (Py.Raised Py.ZeroDivisionError, w') =>
        (Py.Returned 1,
         Py.print_stderr "Error: Division by zero is not allowed." w')
    | (Py.Raised e, w') => (Py.Raised e, w')
    | (Py.Returned result, w') => TestRepoIO.show result w'
    end) by (destruct op; reflexivity).
  rewrite Hio, test_repo_evaluate_io, test_repo_main, test_repo_evaluate.
  destruct (division_by_zero op b); [reflexivity|].
  unfold TestRepoIO.show, printed_line.
  destruct (Py.is_integer (arith op a b)) eqn:Hint; [|reflexivity].
  destruct (int_of_integer _ Hint) as [n Hn].
  unfold Py.and_then, Py.lift. rewrite Hn. reflexivity.
Qed.

Lemma test_folder_main_io (op : Operation) (a b : float) (w : Py.World) :
  TestFolderIO.main (TestFolder.choice op, a, b) w
  = TestFolder.main (TestFolder.choice op, a, b) w.
Proof.
  assert (Hio : TestFolderIO.main (TestFolder.choice op, a, b) w =
    match TestFolderIO.evaluate op a b w with
    | (Py.Returned result, w') =>
        (Py.Returned tt,
         Py.print ("Result: " ++ TestFolder.format_value result) w')
    | (Py.Raised e, w') => (Py.Raised e, w')
    end) by (destruct op; reflexivity).
  rewrite Hio, test_folder_evaluate_io, test_folder_main, test_folder_evaluate.
  destruct (division_by_zero op b); reflexivity.
Qed.

(** C9: with the streams passed through the arithmetic functions as through
    every other call, the dispatcher leaves them as it found them and its
    result is the same whatever they hold: it depends on the operation and
    the operands alone.  All the printing is the caller's: [main] with the
    dispatcher taken as a function of its arguments behaves as [main] with
    the dispatcher run in the streams. *)
Theorem dispatcher_is_pure (op : Operation) (a b : float) (w w' : Py.World) :
  snd (TestRepoIO.evaluate op a b w) = w /\
  snd (TestFolderIO.evaluate op a b w) = w /\
  fst (TestRepoIO.evaluate op a b w) = fst (TestRepoIO.evaluate op a b w') /\
  fst (TestFolderIO.evaluate op a b w)
  = fst (TestFolderIO.evaluate op a b w') /\
  fst (TestRepoIO.evaluate op a b w) = TestRepo.evaluate op a b /\
  fst (TestFolderIO.evaluate op a b w) = TestFolder.evaluate op a b /\
  TestRepoIO.main (TestRepo.subcommand op, a, b) w
  = TestRepo.main (TestRepo.subcommand op, a, b) w /\
  TestFolderIO.main (TestFolder.choice op, a, b) w
  = TestFolder.main (TestFolder.choice op, a, b) w.
Proof.
  rewrite !test_repo_evaluate_io, !test_folder_evaluate_io.
  rewrite test_repo_main_io, test_folder_main_io.
  repeat split.
Qed.

(** ** No exception outside a division by zero *)

(** C10: in [test_repo], when the operation is not the division or [b] is
    not zero, the call of [args.func] returns a value (it does not raise
    [ZeroDivisionError]), the [except] branch is not taken, nothing is
    written to standard error and [main] returns 0. *)
Theorem no_zero_division_error (op : Operation) (a b : float) (w : Py.World) :
  op <> Divide \/ Py.eq_zero b = false ->
  (exists v, TestRepo.evaluate op a b = Py.Returned v) /\
  TestRepo.evaluate op a b <> Py.Raised Py.ZeroDivisionError /\
  fst (TestRepo.main (TestRepo.subcommand op, a, b) w) = Py.Returned 0 /\
  Py.stderr (snd (TestRepo.main (TestRepo.subcommand op, a, b) w))
    = Py.stderr w.
Proof.
  intros Hpre.
  assert (Hz : division_by_zero op b = false).
  { destruct Hpre as [Hop | Hb].
    - destruct op; try reflexivity. contradiction Hop. reflexivity.
    - destruct op; try reflexivity. exact Hb. }
  rewrite test_repo_main, test_repo_evaluate, Hz.
  split; [eexists; reflexivity|].
  split; [discriminate|].
  split; reflexivity.
Qed.

(** On [div 10 4]. *)
Lemma no_zero_division_error_on_10_4 :
  (Divide <> Divide \/ Py.eq_zero 4 = false) /\
  (exists v, TestRepo.evaluate Divide 10 4 = Py.Returned v) /\
  TestRepo.evaluate Divide 10 4 <> Py.Raised Py.ZeroDivisionError /\
  fst (TestRepo.main ("div", 10, 4)%float Py.empty) = Py.Returned 0 /\
  Py.stderr (snd (TestRepo.main ("div", 10, 4)%float Py.empty)) = [].
Proof.
  split; [right; reflexivity|].
  exact (no_zero_division_error Divide 10 4 Py.empty (or_intror eq_refl)).
Defined.

(** ** The command-line vocabulary of the two programs *)

Lemma test_repo_subparser (name : string) :
  TestRepo.subparser name TestRepo.ops =
  if String.eqb name "add" then Some TestRepo.operator_add
  else if String.eqb name "sub" then Some TestRepo.operator_sub
  else if String.eqb name "mul" then Some TestRepo.operator_mul
  else if String.eqb name "div" then Some TestRepo.operator_truediv
  else None.
Proof. reflexivity. Qed.





(** X3: the two command lines share one operation name only: [add] is the
    single name that both [test_repo] and [test_folder] accept. *)
Theorem only_add_is_shared (name : string) :
  (In name TestFolder.choices /\
   TestRepo.subparser name TestRepo.ops <> None)
  <-> name = "add".
Proof.
  split.
  - intros [Hin Hsub]. rewrite test_repo_subparser in Hsub.
    destruct Hin as [<- | [<- | [<- | [<- | []]]]];
      solve [reflexivity | contradiction Hsub; reflexivity].
  - intros ->. split; [cbn; auto | discriminate].
Qed.

(** ** The zero test *)

Lemma eq_zero_iff (b : float) :
  Py.eq_zero b = true <-> b = 0%float \/ b = neg_zero.
Proof.
  unfold Py.eq_zero. rewrite eqb_spec.
  change (Prim2SF 0) with (S754_zero false). split.
  - intros H. destruct (Prim2SF b) as [s | s | | s m e] eqn:E.
    + destruct s; [right | left]; apply Prim2SF_inj; rewrite E; reflexivity.
    + destruct s; discriminate.
    + discriminate.
    + destruct s; discriminate.
  - intros [-> | ->]; reflexivity.
Qed.

(** X5: the zero test [b == 0] holds for two floats only, 0.0 and -0.0.  So
    [test_repo]'s division raises, and [test_folder]'s returns the sentinel
    string, exactly for these two divisors; for every other divisor, NaN and
    the smallest subnormals included, both return the quotient. *)
Theorem division_fails_on_two_divisors (a b : float) :
  (TestRepo.evaluate Divide a b = Py.Raised Py.ZeroDivisionError
   <-> b = 0%float \/ b = neg_zero) /\
  (TestFolder.evaluate Divide a b
     = Py.Returned (TestFolder.VStr "Error: Division by zero")
   <-> b = 0%float \/ b = neg_zero) /\
  (~ (b = 0%float \/ b = neg_zero) ->
   TestRepo.evaluate Divide a b = Py.Returned (a / b)%float /\
   TestFolder.evaluate Divide a b
     = Py.Returned (TestFolder.VFloat (a / b)%float)).
Proof.
  rewrite test_repo_evaluate, test_folder_evaluate.
  cbn [division_by_zero arith].
  pose proof (eq_zero_iff b) as Hz.
  destruct (Py.eq_zero b).
  - assert (Hb : b = 0%float \/ b = neg_zero) by (apply Hz; reflexivity).
    repeat split; solve [auto | contradiction].
  - assert (Hb : ~ (b = 0%float \/ b = neg_zero)).
    { intros H. apply Hz in H. discriminate. }
    repeat split; solve [discriminate | contradiction | reflexivity].
Qed.

Lemma division_by_nan_and_subnormal :
  (TestRepo.evaluate Divide 1 nan = Py.Returned nan /\
   TestFolder.evaluate Divide 1 nan = Py.Returned (TestFolder.VFloat nan)) /\
  (TestRepo.evaluate Divide 0x1p-1074 0x1p-1074 = Py.Returned 1%float /\
   TestFolder.evaluate Divide 0x1p-1074 0x1p-1074
     = Py.Returned (TestFolder.VFloat 1)).
Proof.
  split.
  - destruct (division_fails_on_two_divisors 1 nan) as [_ [_ H]].
    apply H. intros [E | E].
    + apply (f_equal Prim2SF) in E. discriminate E.
    + apply (f_equal Prim2SF) in E. discriminate E.
  - destruct (division_fails_on_two_divisors 0x1p-1074 0x1p-1074)
      as [_ [_ H]].
    apply H. intros [E | E].
    + apply (f_equal Prim2SF) in E. discriminate E.
    + apply (f_equal Prim2SF) in E. discriminate E.
Defined.

(** ** Printing an integral result *)

Lemma int_of_integer_exact (v : float) :
  Py.is_integer v = true ->
  exists n, Py.int_of_float v = Py.Returned n /\ exactly n v.
Proof.
  unfold Py.is_integer, Py.int_of_float, exactly.
  destruct (Prim2SF v) as [s | s | | s m e]; intros H; try discriminate.
  - exists 0. split; reflexivity.
  - destruct (Z.leb_spec 0 e) as [He | He].
    + eexists. split; [reflexivity|].
      rewrite (Z.max_l e 0) by lia. rewrite (Z.max_r (- e) 0) by lia.
      destruct s; cbn [Z.pow]; lia.
    + apply Z.eqb_eq in H.
      assert (Hpow : 0 < 2 ^ (- e)) by (apply Z.pow_pos_nonneg; lia).
      assert (Hdiv : Z.pos m = 2 ^ (- e) * (Z.pos m / 2 ^ (- e))).
      { apply Z.div_exact; [lia | exact H]. }
      eexists. split; [reflexivity|].
      rewrite (Z.max_r e 0) by lia. rewrite (Z.max_l (- e) 0) by lia.
      destruct s; cbn [Z.pow]; lia.
Qed.

Lemma read_int_str_of_int (n : Z) : read_int (Py.str_of_int n) = Some n.
Proof.
  unfold read_int, Py.str_of_int. rewrite NilEmpty.isi.
  cbn [option_map]. rewrite DecimalZ.of_to. reflexivity.
Qed.

(** X6: when [test_repo] prints a result [v] through [int], nothing is lost:
    the line is the numeral of an integer [n] that is exactly the value of
    [v], and reading the line back as an integer gives [n]. *)
Theorem integral_result_printed_exactly (op : Operation) (a b v : float) :
  TestRepo.evaluate op a b = Py.Returned v ->
  Py.is_integer v = true ->
  exists n,
    exactly n v /\
    out (TestRepo.run (TestRepo.subcommand op, a, b)) = [Py.str_of_int n] /\
    read_int (Py.str_of_int n) = Some n.
Proof.
  intros Hv Hint. unfold TestRepo.run. rewrite test_repo_main.
  rewrite test_repo_evaluate in Hv.
  destruct (division_by_zero op b); [discriminate|].
  injection Hv as Hv. rewrite Hv.
  destruct (int_of_integer_exact v Hint) as [n [Hn Hex]].
  exists n. split; [exact Hex | split; [|apply read_int_str_of_int]].
  unfold printed_line. rewrite Hint, Hn. reflexivity.
Qed.

Lemma integral_result_printed_exactly_on_2_pow_70 :
  exists n,
    exactly n 0x1p70 /\
    out (TestRepo.run ("mul", 0x1p35, 0x1p35)%float) = [Py.str_of_int n] /\
    read_int (Py.str_of_int n) = Some n.
Proof.
  exact (integral_result_printed_exactly Multiply 0x1p35 0x1p35 0x1p70
           eq_refl eq_refl).
Defined.

(** ** Binary64 arithmetic: negation, subtraction and NaN *)

Lemma SF64sub_add_opp (x y : spec_float) :
  SF64sub x y = SF64add x (SFopp y).
Proof.
  unfold SF64sub, SF64add, SFsub, SFadd, SFopp.
  destruct x as [sx | sx | | sx mx ex], y as [sy | sy | | sy my ey];
    try reflexivity;
    destruct sx, sy; reflexivity.
Qed.

Lemma SF64sub_zero (x : spec_float) : SF64sub x (S754_zero false) = x.
Proof.
  destruct x as [[|] | s | | s m e]; reflexivity.
Qed.

Lemma SF64sub_diag (x : spec_float) :
  SF64sub x x =
  match x with
  | S754_zero _ | S754_finite _ _ _ => S754_zero false
  | S754_infinity _ | S754_nan => S754_nan
  end.
Proof.
  destruct x as [[|] | [|] | | s m e]; try reflexivity.
  unfold SF64sub, SFsub. cbv zeta. rewrite Z.sub_diag. reflexivity.
Qed.

(** The sign of a rounded result is the sign that was passed in. *)
Lemma binary_round_aux_opp (s : bool) (m e : Z) (l : location) :
  binary_round_aux prec emax (negb s) m e l
  = SFopp (binary_round_aux prec emax s m e l).
Proof.
  unfold binary_round_aux.
  destruct (shr_fexp prec emax m e l) as [mrs' e'].
  destruct (shr_fexp prec emax _ e' loc_Exact) as [mrs'' e''].
  destruct (shr_m mrs'') as [| p | p]; try reflexivity.
  destruct (e'' <=? emax - prec); reflexivity.
Qed.

Lemma SF64mul_opp (x y : spec_float) :
  SF64mul (SFopp x) y = SFopp (SF64mul x y).
Proof.
  unfold SF64mul, SFmul, SFopp.
  destruct x as [sx | sx | | sx mx ex], y as [sy | sy | | sy my ey];
    try reflexivity;
    try (destruct sx, sy; reflexivity).
  rewrite <- negb_xorb_l. apply binary_round_aux_opp.
Qed.

Lemma SF64div_opp (x y : spec_float) :
  SF64div (SFopp x) y = SFopp (SF64div x y).
Proof.
  unfold SF64div, SFdiv, SFopp.
  destruct x as [sx | sx | | sx mx ex], y as [sy | sy | | sy my ey];
    try reflexivity;
    try (destruct sx, sy; reflexivity).
  destruct (SFdiv_core_binary prec emax (Z.pos mx) ex (Z.pos my) ey)
    as [[mz ez] lz].
  rewrite <- negb_xorb_l. apply binary_round_aux_opp.
Qed.

Lemma SF64_nan_absorbs (op : Operation) (x y : spec_float) :
  x = S754_nan \/ y = S754_nan ->
  match op with
  | Add => SF64add x y
  | Subtract => SF64sub x y
  | Multiply => SF64mul x y
  | Divide => SF64div x y
  end = S754_nan.
Proof.
  intros [-> | ->]; destruct op; try reflexivity;
    destruct x as [s | s | | s m e]; reflexivity.
Qed.

(** ** The same facts on Python floats *)

Lemma float_sub_add_opp (a b : float) : (a - b)%float = (a + - b)%float.
Proof.
  apply Prim2SF_inj. rewrite sub_spec, add_spec, opp_spec.
  apply SF64sub_add_opp.
Qed.

Lemma float_sub_zero (a : float) : (a - 0)%float = a.
Proof.
  apply Prim2SF_inj. rewrite sub_spec.
  change (Prim2SF 0) with (S754_zero false). apply SF64sub_zero.
Qed.

Lemma float_mul_opp (a b : float) : (- a * b)%float = (- (a * b))%float.
Proof.
  apply Prim2SF_inj. rewrite mul_spec, !opp_spec, mul_spec.
  apply SF64mul_opp.
Qed.

Lemma float_div_opp (a b : float) : (- a / b)%float = (- (a / b))%float.
Proof.
  apply Prim2SF_inj. rewrite div_spec, !opp_spec, div_spec.
  apply SF64div_opp.
Qed.

Lemma float_sub_diag (a : float) :
  (a - a)%float = if finite a then 0%float else nan.
Proof.
  apply Prim2SF_inj. rewrite sub_spec, SF64sub_diag. unfold finite.
  destruct (Prim2SF a) as [s | s | | s m e]; reflexivity.
Qed.

Lemma is_nan_Prim2SF (a : float) : is_nan a = true -> Prim2SF a = S754_nan.
Proof.
  unfold is_nan. rewrite eqb_spec. unfold SFeqb. intros H.
  destruct (Prim2SF a) as [s | s | | s m e] eqn:E; try reflexivity;
    rewrite SFcompare_refl in H by discriminate; discriminate.
Qed.

Lemma float_nan_absorbs (op : Operation) (a b : float) :
  is_nan a = true \/ is_nan b = true -> arith op a b = nan.
Proof.
  intros H. apply Prim2SF_inj. change (Prim2SF nan) with S754_nan.
  assert (Hsf : Prim2SF a = S754_nan \/ Prim2SF b = S754_nan).
  { destruct H as [H | H]; [left | right]; apply is_nan_Prim2SF; exact H. }
  pose proof (SF64_nan_absorbs op _ _ Hsf) as Habs.
  destruct op; cbn [arith];
    rewrite ?add_spec, ?sub_spec, ?mul_spec, ?div_spec; exact Habs.
Qed.

(** ** How the operations relate *)

(** X7: subtracting [b] is adding [-b]: in both programs [Subtract] on
    [(a, b)] returns exactly what [Add] returns on [(a, -b)], for all floats. *)
Theorem subtract_is_add_of_negation (a b : float) :
  TestRepo.evaluate Subtract a b = TestRepo.evaluate Add a (- b)%float /\
  TestFolder.evaluate Subtract a b = TestFolder.evaluate Add a (- b)%float /\
  TestFolder.subtract a b = TestFolder.add a (- b)%float.
Proof.
  rewrite !test_repo_evaluate, !test_folder_evaluate.
  cbn [division_by_zero arith].
  unfold TestFolder.subtract, TestFolder.add, Py.float_sub, Py.float_add.
  rewrite float_sub_add_opp. repeat split.
Qed.

(** X8: negating the first operand negates the product and the quotient,
    signed zeros and infinities included, and does not change whether the
    division fails. *)
Theorem negation_of_first_operand (a b : float) :
  TestFolder.multiply (- a)%float b = (- TestFolder.multiply a b)%float /\
  TestRepo.evaluate Multiply (- a)%float b
  = Py.bind (TestRepo.evaluate Multiply a b)
            (fun p => Py.Returned (- p)%float) /\
  TestRepo.evaluate Divide (- a)%float b
  = Py.bind (TestRepo.evaluate Divide a b)
            (fun q => Py.Returned (- q)%float) /\
  TestFolder.evaluate Divide (- a)%float b
  = Py.bind (TestFolder.evaluate Divide a b)
            (fun r =>
               match r with
               | TestFolder.VFloat q =>
                   Py.Returned (TestFolder.VFloat (- q)%float)
               | TestFolder.VStr s => Py.Returned (TestFolder.VStr s)
               end).
Proof.
  rewrite !test_repo_evaluate, !test_folder_evaluate.
  cbn [division_by_zero arith].
  unfold TestFolder.multiply, Py.float_mul.
  rewrite float_mul_opp, float_div_opp.
  destruct (Py.eq_zero b); repeat split.
Qed.

(** X9: subtracting a float from itself gives [+0.0] when it is finite and
    NaN otherwise; so [sub a a] prints [0] or [nan] in [test_repo] and
    [Result: 0.0] or [Result: nan] in [test_folder], always with status 0. *)
Theorem subtract_from_itself (a : float) :
  TestRepo.evaluate Subtract a a
  = Py.Returned (if finite a then 0%float else nan) /\
  TestRepo.run ("sub", a, a)
  = {| out := [if finite a then "0" else "nan"]; err := [];
       exit_code := 0 |} /\
  TestFolder.run ("subtract", a, a)
  = {| out := [if finite a then "Result: 0.0" else "Result: nan"];
       err := []; exit_code := 0 |}.
Proof.
  change "sub" with (TestRepo.subcommand Subtract).
  change "subtract" with (TestFolder.choice Subtract).
  unfold TestRepo.run, TestFolder.run.
  rewrite test_repo_main, test_folder_main, test_repo_evaluate.
  cbn [division_by_zero arith]. rewrite float_sub_diag.
  destruct (finite a); repeat split.
Qed.

(** X10: zero is an exact right identity of [Subtract]: [a - 0] is [a]
    itself for every float, [-0.0] and NaN included (whereas [-0.0 + 0] is
    [0.0]). *)
Theorem subtract_zero (a : float) :
  TestRepo.evaluate Subtract a 0 = Py.Returned a /\
  TestFolder.evaluate Subtract a 0 = Py.Returned (TestFolder.VFloat a) /\
  TestFolder.subtract a 0 = a.
Proof.
  rewrite test_repo_evaluate, test_folder_evaluate.
  cbn [division_by_zero arith].
  unfold TestFolder.subtract, Py.float_sub.
  rewrite float_sub_zero. repeat split.
Qed.

(** ** NaN operands *)

(** X11: a NaN operand passes through every operation that does not fail: if
    [a] or [b] is NaN and the request is not a division by zero, the result
    is NaN, [test_repo] prints [nan] and [test_folder] prints [Result: nan],
    both with status 0. *)
Theorem nan_passes_through (op : Operation) (a b : float) :
  is_nan a = true \/ is_nan b = true ->
  division_by_zero op b = false ->
  TestRepo.evaluate op a b = Py.Returned nan /\
  TestFolder.evaluate op a b = Py.Returned (TestFolder.VFloat nan) /\
  TestRepo.run (TestRepo.subcommand op, a, b)
  = {| out := ["nan"]; err := []; exit_code := 0 |} /\
  TestFolder.run (TestFolder.choice op, a, b)
  = {| out := ["Result: nan"]; err := []; exit_code := 0 |}.
Proof.
  intros Hnan Hz. unfold TestRepo.run, TestFolder.run.
  rewrite test_repo_main, test_folder_main.
  rewrite test_repo_evaluate, test_folder_evaluate, Hz.
  rewrite (float_nan_absorbs op a b Hnan). repeat split.
Qed.

Lemma nan_passes_through_on_div_1_nan :
  (is_nan 1 = true \/ is_nan nan = true) /\
  division_by_zero Divide nan = false /\
  TestRepo.run ("div", 1, nan)%float
  = {| out := ["nan"]; err := []; exit_code := 0 |}.
Proof.
  assert (Hnan : is_nan 1 = true \/ is_nan nan = true) by (right; reflexivity).
  split; [exact Hnan | split; [reflexivity|]].
  destruct (nan_passes_through Divide 1 nan Hnan eq_refl) as [_ [_ [Hrun _]]].
  exact Hrun.
Defined.
